(** * business_numbers: donating KBase points

    A shallow embedding of [src/business_numbers.py] and the properties of
    [BusinessNumbers.donate_kbase_points]: validation of the argument, the
    transactional fetch / check / decrement / save sequence, the [except]
    clauses, and the retry policy installed by the [@retry] decorator. *)

From Stdlib Require Import ZArith List Bool Lia DecimalString.
From stdpp Require Import gmap strings.

Local Open Scope Z_scope.

(** ** Python values and exceptions *)

(** The argument [magic_kbase_points] is annotated [int] but Python does not
    enforce annotations: the function can receive any object.  Only the
    class of the object matters for the ones that are not integers. *)
Inductive pyval : Type :=
| PyInt (z : Z)
| PyBool (b : bool)
| PyFloat (repr : string)
| PyStr (s : string)
| PyNone.

(** [isinstance(v, int)]: [bool] is a subclass of [int]. *)
Definition isinstance_int (v : pyval) : bool :=
  match v with
  | PyInt _ | PyBool _ => true
  | _ => false
  end.

(** The integer an [int] instance stands for in comparisons and arithmetic
    ([True] is 1 and [False] is 0). *)
Definition int_value (v : pyval) : Z :=
  match v with
  | PyInt z => z
  | PyBool true => 1
  | _ => 0
  end.

(** The exceptions that can travel through the function.  [raise X from e]
    records [e] as the cause of [X].  [StoreError] stands for any other
    subclass of [Exception] the database wrapper may raise (connection lost,
    driver error); [KeyboardInterrupt] for a [BaseException] that is not an
    [Exception]; [RetryError] is the one tenacity raises when it gives up,
    holding the exception of the last attempt. *)
#[warnings="-register-all"]
Inductive exn : Type :=
| TypeError (msg : string)
| ValueError (msg : string)
| NoSuchUserError (username : string)
| DatabaseOperationError (msg : string) (cause : option exn)
| FutureTimeoutError
| StoreError (name : string)
| KeyboardInterrupt
| RetryError (last_attempt : exn).

(** [isinstance(e, Exception)] *)
Definition isinstance_Exception (e : exn) : bool :=
  match e with
  | KeyboardInterrupt => false
  | _ => true
  end.

Inductive outcome (A : Type) : Type :=
| Return (a : A)
| Raise (e : exn).
Arguments Return {A} a.
Arguments Raise {A} e.

(** ** Formatting integers *)

(** CPython (3.11 and later, at its default setting) refuses to convert an
    int of more than [sys.get_int_max_str_digits()] = 4300 decimal digits
    to a string, and raises a [ValueError] instead. *)
Definition int_max_str_digits : Z := 4300.

(** [z] has at most [int_max_str_digits] decimal digits. *)
Definition printable (z : Z) : bool :=
  Z.abs z <? 10 ^ int_max_str_digits.

Definition int_str_limit_message : string :=
  "Exceeds the limit (4300 digits) for integer string conversion; use sys.set_int_max_str_digits() to increase the limit".

(** [str(z)] for an int. *)
Definition str_int (z : Z) : outcome string :=
  if printable z
  then Return (NilZero.string_of_int (Z.to_int z))
  else Raise (ValueError int_str_limit_message).

(** [f"{v}"]: only the conversion of an int can fail. *)
Definition format_value (v : pyval) : outcome string :=
  match v with
  | PyInt z => str_int z
  | PyBool b => Return (if b then "True" else "False")
  | PyFloat repr => Return repr
  | PyStr s => Return s
  | PyNone => Return "None"
  end.

(** Whether [f"{v}"] yields a string. *)
Definition value_printable (v : pyval) : bool :=
  match v with
  | PyInt z => printable z
  | _ => true
  end.

(** [f"ValueError: Invalid points {magic_kbase_points}"] *)
Definition invalid_points_message (magic_kbase_points : pyval) : outcome string :=
  match format_value magic_kbase_points with
  | Return text => Return ("ValueError: Invalid points " +:+ text)
  | Raise e => Raise e
  end.

(** [f"Insufficient points: User {username} has {user.kbase_points}, needs
    {magic_kbase_points}"], the fields converted from left to right. *)
Definition insufficient_points_message
    (username : string) (balance : Z) (magic_kbase_points : pyval)
  : outcome string :=
  match str_int balance with
  | Raise e => Raise e
  | Return has =>
      match format_value magic_kbase_points with
      | Raise e => Raise e
      | Return needs =>
          Return ("Insufficient points: User " +:+ username +:+ " has "
                    +:+ has +:+ ", needs " +:+ needs)
      end
  end.

(** ** The database wrapper *)

(** The object [get_user] returns: the code reads and updates its attribute
    [kbase_points] and hands it back to [save_user]. *)
Record user : Type := User {
  user_name : string;
  kbase_points : Z
}.

(** The calls made on [self.dbwrapper], as they appear in the source:
    [transaction()] entered by [with], [get_user(username, timeout=2)],
    [save_user(user)], and the exit of the [with] block ([failed] tells
    whether the block is left by an exception). *)
Inductive call : Type :=
| CTransaction
| CGetUser (username : string) (timeout : Z)
| CSaveUser (u : user)
| CExit (failed : bool).

(** Modelled from the spec: the database wrapper is a collaborator passed to
    the constructor and is not in the source.  Following the store contract
    of the spec it is a transactional key-value store: [accounts] holds the
    committed balances, [pending] the working copy of the open transaction
    (committed when the block exits normally, dropped when it exits with an
    error), and every successful write is given a fresh update identifier.
    [faults] is the schedule of the environment: the next call on the wrapper
    raises the exception at its head, if there is one, and has no other
    effect.  [calls], [attempts] and [slept] are instrumentation: the calls
    made on the wrapper (most recent first), the number of times the
    decorated body was started, and the seconds spent waiting between
    attempts. *)
Record world : Type := World {
  accounts : gmap string Z;
  pending : option (gmap string Z);
  faults : list (option exn);
  next_update_id : Z;
  calls : list call;
  attempts : nat;
  slept : nat
}.

(** ** A state and exception monad *)

Definition M (A : Type) : Type := world -> outcome A * world.

Definition ret {A} (a : A) : M A := fun s => (Return a, s).

Definition raise {A} (e : exn) : M A := fun s => (Raise e, s).

Definition bind {A B} (m : M A) (k : A -> M B) : M B :=
  fun s =>
    match m s with
    | (Return a, s') => k a s'
    | (Raise e, s') => (Raise e, s')
    end.

(** [try: m except BaseException as e: h e] *)
Definition try_except {A} (m : M A) (h : exn -> M A) : M A :=
  fun s =>
    match m s with
    | (Return a, s') => (Return a, s')
    | (Raise e, s') => h e s'
    end.

Notation "x <- m ;; k" := (bind m (fun x => k))
  (at level 100, m at next level, right associativity).
Notation "m ;;; k" := (bind m (fun _ => k))
  (at level 100, right associativity).

(** A call on the wrapper: it is logged, consumes one entry of the fault
    schedule and raises it if it is an exception. *)
Definition store_call (c : call) : M unit :=
  fun s =>
    let s' := World (accounts s) (pending s) (tl (faults s))
                    (next_update_id s) (c :: calls s) (attempts s) (slept s) in
    match faults s with
    | Some e :: _ => (Raise e, s')
    | _ => (Return tt, s')
    end.

Definition set_pending (p : option (gmap string Z)) : M unit :=
  fun s => (Return tt,
            World (accounts s) p (faults s) (next_update_id s)
                  (calls s) (attempts s) (slept s)).

(** [self.dbwrapper.transaction().__enter__()]: a working copy of the
    committed accounts. *)
Definition transaction : M unit :=
  store_call CTransaction ;;;
  fun s => set_pending (Some (accounts s)) s.

(** What the current transaction sees. *)
Definition view (s : world) : gmap string Z :=
  match pending s with
  | Some p => p
  | None => accounts s
  end.

(** [self.dbwrapper.get_user(username, timeout=...)]: the account, or [None].
    The object is a copy: updating its attribute reaches the store only
    through [save_user]. *)
Definition get_user (username : string) (timeout : Z) : M (option user) :=
  store_call (CGetUser username timeout) ;;;
  fun s => (Return (User username <$> view s !! username), s).

(** [self.dbwrapper.save_user(user)]: writes the balance of the object into
    the working copy and returns a fresh update identifier. *)
Definition save_user (u : user) : M Z :=
  store_call (CSaveUser u) ;;;
  fun s =>
    (Return (next_update_id s),
     World (accounts s)
           (Some (<[user_name u := kbase_points u]> (view s)))
           (faults s) (next_update_id s + 1)
           (calls s) (attempts s) (slept s)).

(** The [__exit__] of the transaction: commit when the block ended normally,
    roll back when it ended with an exception or when the exit itself
    fails.  It never swallows the exception of the block. *)
Definition transaction_exit (failed : bool) : M unit :=
  fun s =>
    match store_call (CExit failed) s with
    | (Return _, s') =>
        (Return tt,
         World (if failed then accounts s' else view s') None (faults s')
               (next_update_id s') (calls s') (attempts s') (slept s'))
    | (Raise e, s') => (set_pending None ;;; raise e) s'
    end.

(** [with self.dbwrapper.transaction(): body] *)
Definition with_transaction {A} (body : M A) : M A :=
  transaction ;;;
  fun s =>
    match body s with
    | (Return a, s') => (transaction_exit false ;;; ret a) s'
    | (Raise e, s') => (transaction_exit true ;;; raise e) s'
    end.

(** ** The service *)

(** [self.log.error(message)]: the message, an f-string, is built before the
    call, and an exception of its conversions is raised there; the record
    itself goes to the logging sink, which is outside the model. *)
Definition log {A} (message : outcome A) : M unit :=
  fun s =>
    match message with
    | Return _ => (Return tt, s)
    | Raise e => (Raise e, s)
    end.

(** The dictionary returned on success. *)
Record donation : Type := Donation {
  username : string;
  remaining_kbase_points : Z;
  update_id : Z
}.

(** The [except] clauses of the function, in their order: [NoSuchUserError]
    and [ValueError] are raised again as they are, any other [Exception] is
    replaced by a [DatabaseOperationError] raised [from] it, and what is not
    an [Exception] is not caught. *)
Definition except_clauses (e : exn) : M donation :=
  match e with
  | NoSuchUserError _ => raise e
  | ValueError _ => raise e
  | _ =>
      if isinstance_Exception e
      then raise (DatabaseOperationError
                    "Failed to process donation after retries." (Some e))
      else raise e
  end.

(** The body of [donate_kbase_points], under the decorator.  Of the
    logging, the two messages that format integers are kept, since building
    them can raise; the other messages format strings, classes and
    exceptions, and the records have no effect on the result or on the
    store. *)
Definition donate_kbase_points_wrapped
    (username : string) (magic_kbase_points : pyval) : M donation :=
  if negb (isinstance_int magic_kbase_points)
  then raise (TypeError "Donation points must be an integer.")
  else
    let points := int_value magic_kbase_points in
    if points <=? 0
    then
      log (invalid_points_message magic_kbase_points) ;;;
      raise (ValueError "Donation points must be a positive integer.")
    else
      try_except
        (with_transaction
           (found <- get_user username 2 ;;
            match found with
            | None => raise (NoSuchUserError username)
            | Some user =>
                if kbase_points user <? points
                then
                  log (insufficient_points_message
                         username (kbase_points user) magic_kbase_points) ;;;
                  raise (ValueError "Insufficient KBase points.")
                else
                  let user := User (user_name user) (kbase_points user - points) in
                  update_id <- save_user user ;;
                  ret (Donation username (kbase_points user) update_id)
            end))
        except_clauses.

(** ** The retry decorator *)

(** The arguments of tenacity's [@retry]: [stop=stop_after_attempt(n)],
    [wait=wait_fixed(seconds)], [retry=retry_if_exception_type(classes)],
    and [reraise], which the source leaves at its default [False]. *)
Record retrying : Type := Retrying {
  stop_after_attempt : nat;
  wait_fixed : nat;
  retry_if : exn -> bool;
  reraise : bool
}.

(** [retry_if_exception_type((FutureTimeoutError, DatabaseOperationError))] *)
Definition retry_if_exception_type (e : exn) : bool :=
  match e with
  | FutureTimeoutError | DatabaseOperationError _ _ => true
  | _ => false
  end.

Definition begin_attempt (s : world) : world :=
  World (accounts s) (pending s) (faults s) (next_update_id s)
        (calls s) (S (attempts s)) (slept s).

Definition sleep (seconds : nat) (s : world) : world :=
  World (accounts s) (pending s) (faults s) (next_update_id s)
        (calls s) (attempts s) (slept s + seconds).

(** tenacity's loop, with [retries] the number of attempts that may still
    follow the current one.  An attempt that returns ends the loop with its
    value; an exception the [retry] predicate rejects is raised as it is; one
    it accepts leads to a wait and another attempt, unless the stop
    condition is reached: then the exception of the last attempt is raised
    again if [reraise] is set, and a [RetryError] holding it is raised
    otherwise. *)
Fixpoint retry_loop {A} (cfg : retrying) (retries : nat) (f : M A) : M A :=
  fun s =>
    match f (begin_attempt s) with
    | (Return a, s') => (Return a, s')
    | (Raise e, s') =>
        if retry_if cfg e
        then
          match retries with
          | O => (Raise (if reraise cfg then e else RetryError e), s')
          | S k => retry_loop cfg k f (sleep (wait_fixed cfg) s')
          end
        else (Raise e, s')
    end.

(** The decorator: [stop_after_attempt(n)] stops once the attempt number
    reaches [n], so that [n - 1] attempts may follow the first. *)
Definition retry {A} (cfg : retrying) (f : M A) : M A :=
  retry_loop cfg (stop_after_attempt cfg - 1) f.

(** The decorator as the source configures it. *)
Definition decorator : retrying :=
  Retrying 3 1 retry_if_exception_type false.

(** [BusinessNumbers.donate_kbase_points], as callers see it. *)
Definition donate_kbase_points
    (username : string) (magic_kbase_points : pyval) : M donation :=
  retry decorator (donate_kbase_points_wrapped username magic_kbase_points).

(** A state whose next [k] calls on the wrapper raise nothing. *)
Definition quiet (k : nat) (s : world) : bool :=
  forallb (fun f => match f with None => true | Some _ => false end)
          (firstn k (faults s)).

(** The same state under another fault schedule. *)
Definition with_faults (fs : list (option exn)) (s : world) : world :=
  World (accounts s) (pending s) fs (next_update_id s)
        (calls s) (attempts s) (slept s).

(** Failures of the infrastructure: a timeout or a generic store error. *)
Definition transient (e : exn) : bool :=
  match e with
  | FutureTimeoutError | StoreError _ => true
  | _ => false
  end.

(** An attempt in which the fetch raises [e]: the transaction is entered,
    [get_user] fails, and the transaction is left. *)
Definition failing_fetch (e : exn) : list (option exn) :=
  [None; Some e; None].

(** A store with the single account of alice, no call made yet. *)
Definition example_store (balance : Z) (fs : list (option exn)) : world :=
  World {[ "alice" := balance ]} None fs 1 [] 0 0.

(** The exceptions the [except] clauses let through as they are:
    [ValueError] and [NoSuchUserError], raised again by their own clause,
    and what [except Exception] does not catch. *)
Definition passes_through (e : exn) : bool :=
  match e with
  | ValueError _ | NoSuchUserError _ => true
  | _ => negb (isinstance_Exception e)
  end.

(** The fault schedule of an attempt whose call number [i] on the wrapper
    (0 entering the transaction, 1 the fetch, 2 the save, 3 the commit)
    raises [e], the calls before it raising nothing, nor the exit of the
    transaction that follows a failed fetch or save. *)
Definition failure_at (i : nat) (e : exn) : list (option exn) :=
  replicate i None ++ Some e :: match i with
                                | 1%nat | 2%nat => [None]
                                | _ => []
                                end.

(** The calls an attempt for [username] and [v] is expected to make on a
    store whose committed accounts are [acc]: a fetch of [username] with a
    timeout of 2, and a save of that account with [points] taken off a
    balance that covers them. *)
Definition expected_call
    (acc : gmap string Z) (username : string) (v : pyval) (c : call) : Prop :=
  match c with
  | CGetUser name timeout => name = username /\ timeout = 2
  | CSaveUser u =>
      exists bal, acc !! username = Some bal
                  /\ int_value v <= bal
                  /\ u = User username (bal - int_value v)
  | CTransaction | CExit _ => True
  end.

(** ** Logging *)

Arguments printable : simpl never.
Arguments log : simpl never.

(** Building the message of the validation fails exactly when the points
    are an int beyond the conversion limit. *)
Lemma log_invalid_points (v : pyval) (s : world) :
  log (invalid_points_message v) s
  = (if value_printable v
     then Return tt
     else Raise (ValueError int_str_limit_message), s).
Proof.
  unfold log, invalid_points_message, format_value, value_printable, str_int.
  destruct v as [z| | | |]; try reflexivity. now destruct (printable z).
Qed.

(** Building the message of the balance test fails exactly when the balance
    or the points are beyond the conversion limit. *)
Lemma log_insufficient_points
    (username : string) (bal : Z) (v : pyval) (s : world) :
  log (insufficient_points_message username bal v) s
  = (if printable bal && value_printable v
     then Return tt
     else Raise (ValueError int_str_limit_message), s).
Proof.
  unfold log, insufficient_points_message, format_value, value_printable,
    str_int.
  destruct (printable bal); [|reflexivity].
  destruct v as [z| | | |]; try reflexivity. now destruct (printable z).
Qed.

(** The limit itself is the first int that cannot be converted. *)
Lemma printable_limit : printable (10 ^ int_max_str_digits) = false.
Proof.
  unfold printable. rewrite Z.abs_eq by (now apply Z.pow_nonneg).
  apply Z.ltb_irrefl.
Qed.

Lemma value_printable_limit :
  value_printable (PyInt (10 ^ int_max_str_digits)) = false.
Proof. exact printable_limit. Qed.

(** In the message of the balance test [True] is as good as 1. *)
Lemma log_insufficient_points_True (username : string) (bal : Z) (s : world) :
  log (insufficient_points_message username bal (PyBool true)) s
  = log (insufficient_points_message username bal (PyInt 1)) s.
Proof.
  rewrite !log_insufficient_points.
  now replace (value_printable (PyInt 1)) with true by reflexivity.
Qed.

(** ** Validation *)

(** One step of case analysis on what an attempt inspects: the fault
    schedule, the account looked up, the balance test, the messages that
    format integers and the class of the exception reaching the [except]
    clauses. *)
Ltac step :=
  match goal with
  | |- context [log (invalid_points_message ?v) ?s] =>
      rewrite (log_invalid_points v s);
      destruct (value_printable v) eqn:?; simpl
  | |- context [log (insufficient_points_message ?u ?b ?v) ?s] =>
      rewrite (log_insufficient_points u b v s);
      destruct (printable b && value_printable v) eqn:?; simpl
  | |- context [match ?l with [] => _ | _ :: _ => _ end] =>
      let f := fresh "f" in
      let fs := fresh "fs" in
      destruct l as [|[f|] fs]; simpl
  | |- context [match ?e with TypeError _ => _ | _ => _ end] =>
      destruct e; simpl
  | |- context [_ <$> (?m !! ?k)] =>
      destruct (m !! k) eqn:?; simpl
  | |- context [if ?a <? ?b then _ else _] =>
      destruct (Z.ltb_spec a b); simpl
  end.

(** The branch of the validation that rejects non-positive points. *)
Ltac not_positive :=
  unfold bind; rewrite log_invalid_points;
  destruct (value_printable _); simpl.

Ltac unfold_service :=
  unfold donate_kbase_points, retry, donate_kbase_points_wrapped,
    with_transaction, transaction, get_user, save_user, transaction_exit,
    set_pending, store_call, try_except, except_clauses, bind, ret, raise,
    view, begin_attempt, sleep.

Section Validation.

Variables (username : string) (magic_kbase_points : pyval) (s : world).

Lemma wrapped_not_int :
  isinstance_int magic_kbase_points = false ->
  donate_kbase_points_wrapped username magic_kbase_points s
  = (Raise (TypeError "Donation points must be an integer."), s).
Proof. intros H. unfold donate_kbase_points_wrapped. now rewrite H. Qed.

Lemma wrapped_not_positive :
  isinstance_int magic_kbase_points = true ->
  int_value magic_kbase_points <= 0 ->
  donate_kbase_points_wrapped username magic_kbase_points s
  = (Raise (ValueError
              (if value_printable magic_kbase_points
               then "Donation points must be a positive integer."
               else int_str_limit_message)), s).
Proof.
  intros H Hle. unfold donate_kbase_points_wrapped. rewrite H. simpl.
  apply Z.leb_le in Hle. rewrite Hle. unfold bind.
  rewrite log_invalid_points.
  now destruct (value_printable magic_kbase_points).
Qed.

End Validation.

(** An exception the retry predicate rejects ends the loop at once. *)
Lemma retry_loop_propagates {A} cfg k (f : M A) s e s' :
  f (begin_attempt s) = (Raise e, s') ->
  retry_if cfg e = false ->
  retry_loop cfg k f s = (Raise e, s').
Proof. intros Hf He. destruct k; simpl; now rewrite Hf, He. Qed.

Lemma retry_loop_returns {A} cfg k (f : M A) s a s' :
  f (begin_attempt s) = (Return a, s') ->
  retry_loop cfg k f s = (Return a, s').
Proof. intros Hf. destruct k; simpl; now rewrite Hf. Qed.

(** ** One attempt *)

Section Attempt.

Variables (username : string) (v : pyval).
Hypothesis v_int : isinstance_int v = true.
Hypothesis v_pos : 0 < int_value v.

Let points := int_value v.

Lemma wrapped_valid s :
  donate_kbase_points_wrapped username v s
  = try_except
      (with_transaction
         (found <- get_user username 2 ;;
          match found with
          | None => raise (NoSuchUserError username)
          | Some user =>
              if kbase_points user <? points
              then
                log (insufficient_points_message
                       username (kbase_points user) v) ;;;
                raise (ValueError "Insufficient KBase points.")
              else
                let user := User (user_name user) (kbase_points user - points) in
                update_id <- save_user user ;;
                ret (Donation username (kbase_points user) update_id)
          end))
      except_clauses s.
Proof.
  unfold donate_kbase_points_wrapped. rewrite v_int. simpl.
  destruct (Z.leb_spec (int_value v) 0); [lia | reflexivity].
Qed.

(** The store answers and the balance suffices: the attempt commits. *)
Lemma wrapped_success s bal :
  quiet 4 s = true ->
  accounts s !! username = Some bal ->
  points <= bal ->
  donate_kbase_points_wrapped username v s
  = (Return (Donation username (bal - points) (next_update_id s)),
     World (<[username := bal - points]> (accounts s)) None
           (drop 4 (faults s)) (next_update_id s + 1)
           (CExit false :: CSaveUser (User username (bal - points))
              :: CGetUser username 2 :: CTransaction :: calls s)
           (attempts s) (slept s)).
Proof.
  intros Hq Hbal Hle. rewrite wrapped_valid. revert Hq.
  unfold quiet. unfold_service. simpl.
  repeat step; try discriminate; intros _; simplify_eq; try lia; reflexivity.
Qed.

(** The store answers and has no such account. *)
Lemma wrapped_no_user s :
  quiet 3 s = true ->
  accounts s !! username = None ->
  donate_kbase_points_wrapped username v s
  = (Raise (NoSuchUserError username),
     World (accounts s) None (drop 3 (faults s)) (next_update_id s)
           (CExit true :: CGetUser username 2 :: CTransaction :: calls s)
           (attempts s) (slept s)).
Proof.
  intros Hq Hbal. rewrite wrapped_valid. revert Hq.
  unfold quiet. unfold_service. simpl.
  repeat step; try discriminate; intros _; simplify_eq; reflexivity.
Qed.

(** The store answers and the balance is too small. *)
Lemma wrapped_insufficient s bal :
  quiet 3 s = true ->
  accounts s !! username = Some bal ->
  bal < points ->
  donate_kbase_points_wrapped username v s
  = (Raise (ValueError
              (if printable bal && value_printable v
               then "Insufficient KBase points."
               else int_str_limit_message)),
     World (accounts s) None (drop 3 (faults s)) (next_update_id s)
           (CExit true :: CGetUser username 2 :: CTransaction :: calls s)
           (attempts s) (slept s)).
Proof.
  intros Hq Hbal Hlt. rewrite wrapped_valid. revert Hq.
  unfold quiet. unfold_service. simpl.
  repeat step; try discriminate; intros _; simplify_eq; try lia;
    match goal with
    | H : printable ?b && value_printable ?w = _ |- _ => rewrite H
    end; reflexivity.
Qed.

(** The fetch fails with a timeout or a store error: the attempt ends with
    a [DatabaseOperationError] raised from it. *)
Lemma wrapped_fetch_fails s e fs :
  transient e = true ->
  faults s = failing_fetch e ++ fs ->
  donate_kbase_points_wrapped username v s
  = (Raise (DatabaseOperationError
              "Failed to process donation after retries." (Some e)),
     World (accounts s) None fs (next_update_id s)
           (CExit true :: CGetUser username 2 :: CTransaction :: calls s)
           (attempts s) (slept s)).
Proof.
  intros He Hf. rewrite wrapped_valid.
  unfold_service. rewrite Hf. simpl.
  destruct e; try discriminate; reflexivity.
Qed.

End Attempt.

(** What an attempt can do, whatever the store does: it returns only after
    a committed decrement of an account that could afford it, and otherwise
    leaves the committed accounts as they were. *)
Lemma wrapped_inv (username : string) (v : pyval) (s : world) :
  match donate_kbase_points_wrapped username v s with
  | (Return d, s') =>
      exists bal : Z,
        accounts s !! username = Some bal
        /\ isinstance_int v = true
        /\ 0 < int_value v <= bal
        /\ quiet 4 s = true
        /\ d = Donation username (bal - int_value v) (next_update_id s)
        /\ accounts s' = <[username := bal - int_value v]> (accounts s)
        /\ next_update_id s' = next_update_id s + 1
  | (Raise e, s') =>
      accounts s' = accounts s
      /\ (isinstance_int v = true -> forall msg, e <> TypeError msg)
  end.
Proof.
  unfold donate_kbase_points_wrapped.
  destruct (isinstance_int v) eqn:Hint; simpl; [|done].
  destruct (Z.leb_spec (int_value v) 0) as [Hle|Hlt]; [not_positive; done|].
  unfold quiet. unfold_service. simpl.
  repeat step; try done.
  all: eexists; repeat split; eauto; lia.
Qed.

Lemma wrapped_instrumentation (username : string) (v : pyval) (s : world) :
  attempts (snd (donate_kbase_points_wrapped username v s)) = attempts s
  /\ slept (snd (donate_kbase_points_wrapped username v s)) = slept s.
Proof.
  unfold donate_kbase_points_wrapped.
  destruct (isinstance_int v) eqn:Hint; simpl; [|done].
  destruct (Z.leb_spec (int_value v) 0) as [Hle|Hlt]; [not_positive; done|].
  unfold_service. simpl.
  repeat step; done.
Qed.

(** ** The retry loop *)

(** The loop ends with the outcome of a last attempt, started from a state
    with the committed accounts of the initial one when failed attempts
    leave them alone; the exception of that attempt is replaced only when
    the loop gives up. *)
Lemma retry_loop_last {A} cfg k (f : M A) s :
  (forall s0 e s1, f s0 = (Raise e, s1) -> accounts s1 = accounts s0) ->
  exists s0 r0,
    accounts s0 = accounts s
    /\ f s0 = (r0, snd (retry_loop cfg k f s))
    /\ (fst (retry_loop cfg k f s) = r0
        \/ exists e,
             r0 = Raise e /\ retry_if cfg e = true
             /\ fst (retry_loop cfg k f s)
                = Raise (if reraise cfg then e else RetryError e)).
Proof.
  intros Hf. revert s. induction k as [|k IH]; intros s; simpl.
  - destruct (f (begin_attempt s)) as [[a|e] s1] eqn:E.
    + exists (begin_attempt s), (Return a). simpl. auto.
    + exists (begin_attempt s), (Raise e).
      destruct (retry_if cfg e) eqn:R; simpl; eauto 7.
  - destruct (f (begin_attempt s)) as [[a|e] s1] eqn:E.
    + exists (begin_attempt s), (Return a). simpl. auto.
    + destruct (retry_if cfg e) eqn:R.
      * destruct (IH (sleep (wait_fixed cfg) s1)) as (s0 & r0 & Ha & Hr & Ho).
        exists s0, r0. split; [|auto].
        rewrite Ha. simpl. now rewrite (Hf _ _ _ E).
      * exists (begin_attempt s), (Raise e). simpl. auto.
Qed.

(** The loop makes at most [k + 1] attempts. *)
Lemma retry_loop_attempts {A} cfg k (f : M A) s :
  (forall s0, attempts (snd (f s0)) = attempts s0) ->
  (attempts (snd (retry_loop cfg k f s)) <= attempts s + S k)%nat.
Proof.
  intros Hf. revert s. induction k as [|k IH]; intros s; simpl.
  - specialize (Hf (begin_attempt s)).
    destruct (f (begin_attempt s)) as [[a|e] s1]; simpl in *; [lia|].
    destruct (retry_if cfg e); simpl; lia.
  - specialize (Hf (begin_attempt s)).
    destruct (f (begin_attempt s)) as [[a|e] s1]; simpl in *; [lia|].
    destruct (retry_if cfg e); simpl; [|lia].
    specialize (IH (sleep (wait_fixed cfg) s1)). simpl in IH. lia.
Qed.

(** ** The decorated function *)

Lemma donate_inv (username : string) (v : pyval) (s : world) :
  match donate_kbase_points username v s with
  | (Return d, s') =>
      exists bal : Z,
        accounts s !! username = Some bal
        /\ isinstance_int v = true
        /\ 0 < int_value v <= bal
        /\ d = Donation username (bal - int_value v) (next_update_id s' - 1)
        /\ accounts s' = <[username := bal - int_value v]> (accounts s)
  | (Raise e, s') =>
      accounts s' = accounts s
      /\ (isinstance_int v = true -> forall msg, e <> TypeError msg)
  end.
Proof.
  assert (Hpres : forall s0 e s1,
             donate_kbase_points_wrapped username v s0 = (Raise e, s1) ->
             accounts s1 = accounts s0).
  { intros s1 e s2 E. pose proof (wrapped_inv username v s1) as H.
    rewrite E in H. tauto. }
  unfold donate_kbase_points, retry.
  generalize (retry_loop_last decorator (stop_after_attempt decorator - 1)
                _ s Hpres).
  destruct (retry_loop decorator _ _ s) as [r s'].
  cbn [fst snd]. intros (s0 & r0 & Ha & Hr & Ho).
  pose proof (wrapped_inv username v s0) as H. rewrite Hr in H.
  destruct Ho as [->|(e & -> & _ & ->)].
  - destruct r0 as [d|e]; [|rewrite <- Ha; exact H].
    destruct H as (bal & Hb & Hi & Hp & _ & -> & Hacc & Hid).
    exists bal. rewrite <- Ha. repeat split; try tauto.
    f_equal. lia.
  - rewrite <- Ha. split; [tauto | discriminate].
Qed.

(** [donate] never starts more than three attempts. *)
Lemma donate_at_most_three_attempts (username : string) (v : pyval) (s : world) :
  (attempts (snd (donate_kbase_points username v s)) <= attempts s + 3)%nat.
Proof.
  apply (retry_loop_attempts decorator 2). intros s0.
  apply wrapped_instrumentation.
Qed.

Lemma quiet_split (s : world) :
  quiet 8 s = true ->
  quiet 4 s = true /\ forallb (fun f => match f with None => true | Some _ => false end)
                              (firstn 4 (drop 4 (faults s))) = true.
Proof.
  unfold quiet. generalize (faults s) as l. intros l.
  do 8 (destruct l as [|[?|] l]; simpl; try done).
Qed.

Section Donate.

Variables (username : string) (v : pyval).
Hypothesis v_int : isinstance_int v = true.
Hypothesis v_pos : 0 < int_value v.

Lemma donate_success s bal :
  quiet 4 s = true ->
  accounts s !! username = Some bal ->
  int_value v <= bal ->
  donate_kbase_points username v s
  = (Return (Donation username (bal - int_value v) (next_update_id s)),
     World (<[username := bal - int_value v]> (accounts s)) None
           (drop 4 (faults s)) (next_update_id s + 1)
           (CExit false :: CSaveUser (User username (bal - int_value v))
              :: CGetUser username 2 :: CTransaction :: calls s)
           (S (attempts s)) (slept s)).
Proof.
  intros Hq Hbal Hle. apply retry_loop_returns.
  now rewrite (wrapped_success username v v_int v_pos _ bal).
Qed.

Lemma donate_no_user s :
  quiet 3 s = true ->
  accounts s !! username = None ->
  donate_kbase_points username v s
  = (Raise (NoSuchUserError username),
     World (accounts s) None (drop 3 (faults s)) (next_update_id s)
           (CExit true :: CGetUser username 2 :: CTransaction :: calls s)
           (S (attempts s)) (slept s)).
Proof.
  intros Hq Hbal. apply retry_loop_propagates; [|reflexivity].
  now rewrite (wrapped_no_user username v v_int v_pos).
Qed.

Lemma donate_insufficient s bal :
  quiet 3 s = true ->
  accounts s !! username = Some bal ->
  bal < int_value v ->
  donate_kbase_points username v s
  = (Raise (ValueError
              (if printable bal && value_printable v
               then "Insufficient KBase points."
               else int_str_limit_message)),
     World (accounts s) None (drop 3 (faults s)) (next_update_id s)
           (CExit true :: CGetUser username 2 :: CTransaction :: calls s)
           (S (attempts s)) (slept s)).
Proof.
  intros Hq Hbal Hlt. apply retry_loop_propagates; [|reflexivity].
  now rewrite (wrapped_insufficient username v v_int v_pos _ bal).
Qed.

End Donate.

(** C3: when [points] is not an instance of [int], [donate] raises the
    [TypeError] at the first attempt: one attempt, no wait, no call on the
    store (neither [transaction], [get_user] nor [save_user]), and a store
    left as it was. *)
Theorem donate_rejects_non_integer (username : string) (v : pyval) (s : world) :
  isinstance_int v = false ->
  exists s',
    donate_kbase_points username v s
    = (Raise (TypeError "Donation points must be an integer."), s')
    /\ calls s' = calls s
    /\ attempts s' = S (attempts s)
    /\ slept s' = slept s
    /\ accounts s' = accounts s
    /\ pending s' = pending s
    /\ faults s' = faults s.
Proof.
  intros H. exists (begin_attempt s). split; [|now repeat split].
  apply retry_loop_propagates; [now apply wrapped_not_int | reflexivity].
Qed.

Lemma donate_rejects_non_integer_witness :
  isinstance_int (PyFloat "2.5") = false
  /\ exists s',
       donate_kbase_points "alice" (PyFloat "2.5") (example_store 100 [])
       = (Raise (TypeError "Donation points must be an integer."), s')
       /\ calls s' = calls (example_store 100 [])
       /\ attempts s' = S (attempts (example_store 100 []))
       /\ slept s' = slept (example_store 100 [])
       /\ accounts s' = accounts (example_store 100 [])
       /\ pending s' = pending (example_store 100 [])
       /\ faults s' = faults (example_store 100 []).
Proof.
  split; [reflexivity|].
  apply (donate_rejects_non_integer "alice" (PyFloat "2.5")). reflexivity.
Defined.

(** C4: when [points] is an integer not above zero, [donate] raises a
    [ValueError] at the first attempt: one attempt, no wait, no call on the
    store, and a store left as it was.  The message is the one of the
    validation, unless the points are an int too long to be written in the
    log message that precedes it, in which case it is the one of the
    conversion. *)
Theorem donate_rejects_non_positive (username : string) (v : pyval) (s : world) :
  isinstance_int v = true ->
  int_value v <= 0 ->
  exists s',
    donate_kbase_points username v s
    = (Raise (ValueError
                (if value_printable v
                 then "Donation points must be a positive integer."
                 else int_str_limit_message)), s')
    /\ calls s' = calls s
    /\ attempts s' = S (attempts s)
    /\ slept s' = slept s
    /\ accounts s' = accounts s
    /\ pending s' = pending s
    /\ faults s' = faults s.
Proof.
  intros Hi Hle. exists (begin_attempt s). split; [|now repeat split].
  apply retry_loop_propagates; [now apply wrapped_not_positive | reflexivity].
Qed.

Lemma donate_rejects_non_positive_witness :
  exists s',
    donate_kbase_points "alice" (PyInt (-5)) (example_store 100 [])
    = (Raise (ValueError "Donation points must be a positive integer."), s')
    /\ calls s' = calls (example_store 100 [])
    /\ attempts s' = S (attempts (example_store 100 []))
    /\ slept s' = slept (example_store 100 [])
    /\ accounts s' = accounts (example_store 100 [])
    /\ pending s' = pending (example_store 100 [])
    /\ faults s' = faults (example_store 100 []).
Proof.
  assert (Hle : int_value (PyInt (-5)) <= 0) by (simpl; lia).
  exact (donate_rejects_non_positive "alice" (PyInt (-5))
           (example_store 100 []) eq_refl Hle).
Defined.

(** C5: when the store answers and has no account for [username], [donate]
    raises [NoSuchUserError] at the first attempt: one attempt and no wait;
    the only calls on the store are entering the transaction, the fetch and
    leaving the transaction with the error, so nothing is saved and the
    accounts are as before. *)
Theorem donate_unknown_user (username : string) (v : pyval) (s : world) :
  isinstance_int v = true ->
  0 < int_value v ->
  quiet 3 s = true ->
  accounts s !! username = None ->
  exists s',
    donate_kbase_points username v s = (Raise (NoSuchUserError username), s')
    /\ calls s'
       = CExit true :: CGetUser username 2 :: CTransaction :: calls s
    /\ (forall u, CSaveUser u ∉ CExit true :: CGetUser username 2 :: [CTransaction])
    /\ attempts s' = S (attempts s)
    /\ slept s' = slept s
    /\ accounts s' = accounts s.
Proof.
  intros Hi Hp Hq Hn. eexists. split.
  - now apply donate_no_user.
  - repeat split. intros u Hin.
    repeat (apply elem_of_cons in Hin as [Hin|Hin]; [discriminate|]).
    now apply elem_of_nil in Hin.
Qed.

Lemma donate_unknown_user_witness :
  exists s',
    donate_kbase_points "bob" (PyInt 30) (example_store 100 [])
    = (Raise (NoSuchUserError "bob"), s')
    /\ calls s'
       = CExit true :: CGetUser "bob" 2 :: CTransaction
           :: calls (example_store 100 [])
    /\ (forall u, CSaveUser u ∉ CExit true :: CGetUser "bob" 2 :: [CTransaction])
    /\ attempts s' = S (attempts (example_store 100 []))
    /\ slept s' = slept (example_store 100 [])
    /\ accounts s' = accounts (example_store 100 []).
Proof.
  apply (donate_unknown_user "bob" (PyInt 30)); reflexivity.
Defined.

(** C6 (the code does otherwise for very long integers): when the store
    answers and the balance of the account is below [points], [donate]
    raises a [ValueError] at the first attempt, nothing is saved and the
    balance is the one it was.  The message is "Insufficient KBase points."
    when the balance and the points have at most 4300 digits; beyond that
    the log message built just before cannot be formatted, and the
    [ValueError] of the conversion is raised in its place. *)
Theorem donate_insufficient_balance
    (username : string) (v : pyval) (s : world) (bal : Z) :
  isinstance_int v = true ->
  0 < int_value v ->
  quiet 3 s = true ->
  accounts s !! username = Some bal ->
  bal < int_value v ->
  exists msg s',
    donate_kbase_points username v s = (Raise (ValueError msg), s')
    /\ msg = (if printable bal && value_printable v
              then "Insufficient KBase points."
              else int_str_limit_message)
    /\ String.prefix "Insufficient" msg = printable bal && value_printable v
    /\ calls s'
       = CExit true :: CGetUser username 2 :: CTransaction :: calls s
    /\ (forall u, CSaveUser u ∉ CExit true :: CGetUser username 2 :: [CTransaction])
    /\ accounts s' = accounts s
    /\ accounts s' !! username = Some bal
    /\ attempts s' = S (attempts s)
    /\ slept s' = slept s.
Proof.
  intros Hi Hp Hq Hb Hlt. do 2 eexists. split.
  - now apply (donate_insufficient username v Hi Hp s bal).
  - split; [reflexivity|]. split.
    { now destruct (printable bal && value_printable v). }
    repeat split; [|exact Hb]. intros u Hin.
    repeat (apply elem_of_cons in Hin as [Hin|Hin]; [discriminate|]).
    now apply elem_of_nil in Hin.
Qed.

(** A balance of 100 and points of 4301 digits: the error is the one of the
    conversion, not the one of the balance. *)
Lemma donate_insufficient_balance_witness :
  exists s',
    donate_kbase_points "alice" (PyInt (10 ^ int_max_str_digits))
      (example_store 100 [])
    = (Raise (ValueError int_str_limit_message), s')
    /\ String.prefix "Insufficient" int_str_limit_message = false
    /\ accounts s' !! "alice" = Some 100.
Proof.
  assert (Hp : 0 < int_value (PyInt (10 ^ int_max_str_digits)))
    by reflexivity.
  assert (Hlt : 100 < int_value (PyInt (10 ^ int_max_str_digits)))
    by reflexivity.
  destruct (donate_insufficient_balance "alice"
              (PyInt (10 ^ int_max_str_digits)) (example_store 100 []) 100
              eq_refl Hp eq_refl eq_refl Hlt)
    as (msg & s' & E & Hmsg & _ & _ & _ & _ & Hacc & _).
  rewrite value_printable_limit, andb_false_r in Hmsg.
  exists s'. rewrite E, Hmsg. split; [exact eq_refl|].
  split; [exact eq_refl | exact Hacc].
Defined.

(** Within the limit the message is the one of the balance. *)
Lemma donate_insufficient_balance_within_limit :
  exists s',
    donate_kbase_points "alice" (PyInt 130) (example_store 100 [])
    = (Raise (ValueError "Insufficient KBase points."), s')
    /\ accounts s' !! "alice" = Some 100.
Proof.
  assert (Hp : 0 < int_value (PyInt 130)) by reflexivity.
  assert (Hlt : 100 < int_value (PyInt 130)) by reflexivity.
  eexists. split.
  - exact (donate_insufficient "alice" (PyInt 130) eq_refl Hp
             (example_store 100 []) 100 eq_refl eq_refl Hlt).
  - reflexivity.
Qed.

(** The identifier [save_user] returns when it does not fail. *)
Lemma save_user_returns (u : user) (s : world) :
  quiet 1 s = true ->
  fst (save_user u s) = Return (next_update_id s).
Proof.
  unfold quiet, save_user, store_call, bind.
  destruct (faults s) as [|[e|] fs]; simpl; done.
Qed.

(** C2: for an account holding [bal] and a positive integer [points] not
    above it, a donation that the store lets through returns at the first
    attempt, with [remaining] the old balance less [points] and [update_id]
    the identifier handed out by the one [save_user] call; the stored
    balance is then that remaining value and no other account changes.  And
    whatever the store does, a [donate] that returns has decreased the stored
    balance by exactly [points] and returns the new balance and the
    identifier of the last write. *)
Theorem donate_decrements_balance
    (username : string) (v : pyval) (s : world) (bal : Z) :
  isinstance_int v = true ->
  0 < int_value v ->
  accounts s !! username = Some bal ->
  int_value v <= bal ->
  (quiet 4 s = true ->
   exists s',
     donate_kbase_points username v s
     = (Return (Donation username (bal - int_value v) (next_update_id s)), s')
     /\ accounts s' !! username = Some (bal - int_value v)
     /\ (forall other, other <> username ->
                       accounts s' !! other = accounts s !! other)
     /\ calls s'
        = CExit false :: CSaveUser (User username (bal - int_value v))
            :: CGetUser username 2 :: CTransaction :: calls s
     /\ attempts s' = S (attempts s))
  /\ (forall d s',
        donate_kbase_points username v s = (Return d, s') ->
        accounts s' !! username = Some (bal - int_value v)
        /\ remaining_kbase_points d = bal - int_value v
        /\ update_id d = next_update_id s' - 1).
Proof.
  intros Hi Hp Hb Hle. split.
  - intros Hq. eexists. split.
    + now apply (donate_success username v Hi Hp s bal).
    + cbn [accounts calls attempts]. repeat split.
      * apply lookup_insert_eq.
      * intros other Hne. now apply lookup_insert_ne.
  - intros d s' E. pose proof (donate_inv username v s) as H.
    rewrite E in H. destruct H as (bal' & Hb' & _ & _ & -> & ->).
    assert (bal' = bal) as -> by congruence.
    repeat split. apply lookup_insert_eq.
Qed.

(** The scenario of the specification: a balance of 100 and 30 points. *)
Lemma donate_decrements_balance_witness :
  exists s',
    donate_kbase_points "alice" (PyInt 30) (example_store 100 [])
    = (Return (Donation "alice" 70 1), s')
    /\ accounts s' !! "alice" = Some 70.
Proof.
  assert (Hp : 0 < int_value (PyInt 30)) by (simpl; lia).
  assert (Hb : accounts (example_store 100 []) !! "alice" = Some 100)
    by reflexivity.
  assert (Hle : int_value (PyInt 30) <= 100) by (simpl; lia).
  destruct (donate_decrements_balance "alice" (PyInt 30) (example_store 100 [])
              100 eq_refl Hp Hb Hle) as [H _].
  destruct (H eq_refl) as (s' & E & Hacc & _).
  exists s'. split; [exact E | exact Hacc].
Defined.

(** C7: an account with a non-negative balance still has a non-negative
    balance after any [donate] that returns, whatever the store did on the
    way; and when the balance equals the (positive) [points] the donation
    goes through and leaves a balance of exactly 0. *)
Theorem balance_never_negative
    (username : string) (v : pyval) (s : world) (name : string) (bal : Z) :
  accounts s !! name = Some bal ->
  0 <= bal ->
  (forall d s',
     donate_kbase_points username v s = (Return d, s') ->
     exists bal', accounts s' !! name = Some bal' /\ 0 <= bal')
  /\ (name = username -> isinstance_int v = true -> int_value v = bal ->
      0 < bal -> quiet 4 s = true ->
      exists s',
        donate_kbase_points username v s
        = (Return (Donation username 0 (next_update_id s)), s')
        /\ accounts s' !! username = Some 0).
Proof.
  intros Hb Hnn. split.
  - intros d s' E. pose proof (donate_inv username v s) as H.
    rewrite E in H. destruct H as (b & Hu & _ & Hp & _ & ->).
    destruct (decide (username = name)) as [->|Hne].
    + exists (b - int_value v). rewrite lookup_insert_eq. split; [done | lia].
    + exists bal. rewrite lookup_insert_ne by done. done.
  - intros -> Hi Hv Hp Hq. eexists. split.
    + rewrite (donate_success username v Hi ltac:(lia) s bal Hq Hb ltac:(lia)).
      rewrite Hv, Z.sub_diag. reflexivity.
    + cbn [accounts]. apply lookup_insert_eq.
Qed.

Lemma balance_never_negative_witness :
  exists s',
    donate_kbase_points "alice" (PyInt 100) (example_store 100 [])
    = (Return (Donation "alice" 0 1), s')
    /\ accounts s' !! "alice" = Some 0.
Proof.
  assert (Hb : accounts (example_store 100 []) !! "alice" = Some 100)
    by reflexivity.
  assert (Hnn : 0 <= 100) by lia.
  destruct (balance_never_negative "alice" (PyInt 100) (example_store 100 [])
              "alice" 100 Hb Hnn) as [_ H].
  apply H; reflexivity.
Defined.

(** C9: two calls of [donate] with the same arguments, on a balance that
    covers both, are two donations: each returns, the balance goes down by
    [points] twice, and the second update identifier is a new one. *)
Theorem donate_twice_decrements_twice
    (username : string) (v : pyval) (s : world) (bal : Z) :
  isinstance_int v = true ->
  0 < int_value v ->
  accounts s !! username = Some bal ->
  2 * int_value v <= bal ->
  quiet 8 s = true ->
  exists d1 s1 d2 s2,
    donate_kbase_points username v s = (Return d1, s1)
    /\ donate_kbase_points username v s1 = (Return d2, s2)
    /\ remaining_kbase_points d1 = bal - int_value v
    /\ remaining_kbase_points d2 = bal - 2 * int_value v
    /\ accounts s2 !! username = Some (bal - 2 * int_value v)
    /\ update_id d2 <> update_id d1.
Proof.
  intros Hi Hp Hb Hle Hq. apply quiet_split in Hq as [Hq1 Hq2].
  do 4 eexists. split; [|split].
  - now apply (donate_success username v Hi Hp s bal); [..|lia].
  - apply (donate_success username v Hi Hp _ (bal - int_value v)).
    + exact Hq2.
    + apply lookup_insert_eq.
    + lia.
  - cbn. repeat split.
    + lia.
    + rewrite lookup_insert_eq. f_equal. lia.
    + lia.
Qed.

Lemma donate_twice_decrements_twice_witness :
  exists d1 s1 d2 s2,
    donate_kbase_points "alice" (PyInt 30) (example_store 100 []) = (Return d1, s1)
    /\ donate_kbase_points "alice" (PyInt 30) s1 = (Return d2, s2)
    /\ remaining_kbase_points d1 = 100 - 30
    /\ remaining_kbase_points d2 = 100 - 2 * 30
    /\ accounts s2 !! "alice" = Some (100 - 2 * 30)
    /\ update_id d2 <> update_id d1.
Proof.
  apply (donate_twice_decrements_twice "alice" (PyInt 30) (example_store 100 []) 100);
    try reflexivity; simpl; lia.
Defined.

(** ** Retries *)

(** Rewrites the attempt in the goal that fails at the fetch with [e]. *)
Ltac fetch_fails Hi Hp e He :=
  match goal with
  | |- context [donate_kbase_points_wrapped ?u ?v ?s0] =>
      rewrite (wrapped_fetch_fails u v Hi Hp s0 e _ He eq_refl);
      cbn [retry_if_exception_type]
  end.

Ltac unfold_retry :=
  unfold donate_kbase_points, retry;
  cbn [decorator stop_after_attempt wait_fixed retry_if reraise Nat.sub retry_loop].

(** Three attempts whose fetch fails, under any setting of [reraise]. *)
Lemma three_failing_fetches
    (rr : bool) (username : string) (v : pyval) (s : world)
    (e1 e2 e3 : exn) (fs : list (option exn)) :
  isinstance_int v = true ->
  0 < int_value v ->
  transient e1 = true -> transient e2 = true -> transient e3 = true ->
  faults s = failing_fetch e1 ++ failing_fetch e2 ++ failing_fetch e3 ++ fs ->
  let failure :=
    DatabaseOperationError "Failed to process donation after retries." (Some e3) in
  retry (Retrying 3 1 retry_if_exception_type rr)
        (donate_kbase_points_wrapped username v) s
  = (Raise (if rr then failure else RetryError failure),
     World (accounts s) None fs (next_update_id s)
           (CExit true :: CGetUser username 2 :: CTransaction
              :: CExit true :: CGetUser username 2 :: CTransaction
              :: CExit true :: CGetUser username 2 :: CTransaction :: calls s)
           (attempts s + 3) (slept s + 2)).
Proof.
  intros Hi Hp H1 H2 H3 Hf failure. unfold retry.
  cbn [stop_after_attempt wait_fixed retry_if reraise Nat.sub retry_loop].
  rewrite (wrapped_fetch_fails username v Hi Hp (begin_attempt s) e1 _ H1 Hf).
  cbn [retry_if_exception_type].
  fetch_fails Hi Hp e2 H2.
  fetch_fails Hi Hp e3 H3.
  cbn. do 2 f_equal; lia.
Qed.

(** C1 (the code does otherwise): after three attempts that each fail with
    a timeout or a store error, the caller of [donate] does not get the
    [DatabaseOperationError]: the decorator is left at [reraise=False], so
    tenacity raises its own [RetryError], which holds the
    [DatabaseOperationError] of the last attempt, itself raised from the
    last failure of the store. *)
Theorem three_failures_raise_RetryError
    (username : string) (v : pyval) (s : world)
    (e1 e2 e3 : exn) (fs : list (option exn)) :
  isinstance_int v = true ->
  0 < int_value v ->
  transient e1 = true -> transient e2 = true -> transient e3 = true ->
  faults s = failing_fetch e1 ++ failing_fetch e2 ++ failing_fetch e3 ++ fs ->
  exists s',
    donate_kbase_points username v s
    = (Raise (RetryError
                (DatabaseOperationError
                   "Failed to process donation after retries." (Some e3))), s')
    /\ (forall msg cause,
          fst (donate_kbase_points username v s)
          <> Raise (DatabaseOperationError msg cause))
    /\ attempts s' = (attempts s + 3)%nat
    /\ slept s' = (slept s + 2)%nat
    /\ accounts s' = accounts s.
Proof.
  intros Hi Hp H1 H2 H3 Hf.
  pose proof (three_failing_fetches false username v s e1 e2 e3 fs
                Hi Hp H1 H2 H3 Hf) as E.
  cbn zeta in E. fold decorator in E.
  change (retry decorator (donate_kbase_points_wrapped username v) s)
    with (donate_kbase_points username v s) in E.
  eexists. split; [exact E|]. rewrite E. repeat split. discriminate.
Qed.

Lemma three_failures_raise_RetryError_witness :
  exists s',
    donate_kbase_points "alice" (PyInt 30)
      (example_store 100
         (failing_fetch FutureTimeoutError
            ++ failing_fetch (StoreError "ConnectionError")
            ++ failing_fetch FutureTimeoutError))
    = (Raise (RetryError
                (DatabaseOperationError
                   "Failed to process donation after retries."
                   (Some FutureTimeoutError))), s')
    /\ accounts s' !! "alice" = Some 100.
Proof.
  assert (Hp : 0 < int_value (PyInt 30)) by (simpl; lia).
  destruct (three_failures_raise_RetryError "alice" (PyInt 30)
              (example_store 100
                 (failing_fetch FutureTimeoutError
                    ++ failing_fetch (StoreError "ConnectionError")
                    ++ failing_fetch FutureTimeoutError))
              FutureTimeoutError (StoreError "ConnectionError")
              FutureTimeoutError [] eq_refl Hp eq_refl eq_refl eq_refl eq_refl)
    as (s' & E & _ & _ & _ & Hacc).
  exists s'. split; [exact E|]. rewrite Hacc. reflexivity.
Defined.

(** With [reraise=True] the same three failures would reach the caller as
    the [DatabaseOperationError] the docstring announces. *)
Lemma reraise_would_surface_DatabaseOperationError
    (username : string) (v : pyval) (s : world)
    (e1 e2 e3 : exn) (fs : list (option exn)) :
  isinstance_int v = true ->
  0 < int_value v ->
  transient e1 = true -> transient e2 = true -> transient e3 = true ->
  faults s = failing_fetch e1 ++ failing_fetch e2 ++ failing_fetch e3 ++ fs ->
  fst (retry (Retrying 3 1 retry_if_exception_type true)
             (donate_kbase_points_wrapped username v) s)
  = Raise (DatabaseOperationError
             "Failed to process donation after retries." (Some e3)).
Proof.
  intros Hi Hp H1 H2 H3 Hf.
  now rewrite (three_failing_fetches true username v s e1 e2 e3 fs).
Qed.

(** C8: if an attempt started now would return [d], then with two timeouts
    of the fetch ahead of it [donate] still returns [d]: the two failed
    attempts are retried after a wait of one second each, the third attempt
    is the successful one, and the accounts and the next update identifier
    end as they would have without the timeouts. *)
Theorem retries_are_transparent
    (username : string) (v : pyval) (s : world) (d : donation) (s1 : world) :
  donate_kbase_points_wrapped username v (begin_attempt s) = (Return d, s1) ->
  let timeout := failing_fetch FutureTimeoutError in
  exists s3,
    donate_kbase_points username v (with_faults (timeout ++ timeout ++ faults s) s)
    = (Return d, s3)
    /\ donate_kbase_points username v s = (Return d, s1)
    /\ accounts s3 = accounts s1
    /\ next_update_id s3 = next_update_id s1
    /\ faults s3 = faults s1
    /\ attempts s1 = S (attempts s)
    /\ attempts s3 = (attempts s + 3)%nat
    /\ slept s3 = (slept s + 2)%nat.
Proof.
  intros E timeout.
  pose proof (wrapped_inv username v (begin_attempt s)) as H.
  rewrite E in H. destruct H as (bal & Hb & Hi & [Hp Hle] & Hq & Hd & _).
  rewrite (wrapped_success username v Hi Hp _ bal Hq Hb Hle) in E.
  injection E as _ <-.
  eexists. split; [|split].
  - unfold_retry.
    fetch_fails Hi Hp FutureTimeoutError (eq_refl true).
    fetch_fails Hi Hp FutureTimeoutError (eq_refl true).
    match goal with
    | |- context [donate_kbase_points_wrapped ?u ?v ?s0] =>
        rewrite (wrapped_success u v Hi Hp s0 bal Hq Hb Hle)
    end.
    rewrite Hd. reflexivity.
  - rewrite Hd. now apply (donate_success username v Hi Hp s bal).
  - cbn. repeat split; lia.
Qed.

Lemma retries_are_transparent_witness :
  exists s3,
    donate_kbase_points "alice" (PyInt 30)
      (example_store 100
         (failing_fetch FutureTimeoutError ++ failing_fetch FutureTimeoutError))
    = (Return (Donation "alice" 70 1), s3)
    /\ attempts s3 = 3%nat.
Proof.
  assert (E1 : donate_kbase_points_wrapped "alice" (PyInt 30)
                 (begin_attempt (example_store 100 []))
               = (Return (Donation "alice" 70 1),
                  World (<["alice" := 70]> {["alice" := 100]}) None [] 2
                        [CExit false; CSaveUser (User "alice" 70);
                         CGetUser "alice" 2; CTransaction] 1 0))
    by (vm_compute; reflexivity).
  destruct (retries_are_transparent "alice" (PyInt 30) (example_store 100 [])
              (Donation "alice" 70 1) _ E1)
    as (s3 & E & _ & _ & _ & _ & _ & Hatt & _).
  exists s3. split; [exact E | exact Hatt].
Defined.

(** ** Booleans *)

(** The loop only looks at what the attempts do. *)
Lemma retry_loop_ext {A} cfg k (f g : M A) :
  (forall s, f s = g s) ->
  forall s, retry_loop cfg k f s = retry_loop cfg k g s.
Proof.
  intros Hfg. induction k as [|k IH]; intros s; simpl; rewrite Hfg;
    destruct (g (begin_attempt s)) as [[a|e] s1]; try reflexivity;
    destruct (retry_if cfg e); try reflexivity.
  apply IH.
Qed.

(** An attempt with [True] is an attempt with 1. *)
Lemma wrapped_True_is_one (username : string) (s : world) :
  donate_kbase_points_wrapped username (PyBool true) s
  = donate_kbase_points_wrapped username (PyInt 1) s.
Proof.
  unfold donate_kbase_points_wrapped. simpl.
  unfold try_except, with_transaction, transaction, get_user, bind.
  destruct (store_call CTransaction s) as [[[]|e] s1]; [|reflexivity].
  unfold set_pending.
  match goal with
  | |- context [store_call (CGetUser username 2) ?s2] =>
      destruct (store_call (CGetUser username 2) s2) as [[[]|e] s3];
      [|reflexivity]
  end.
  destruct (view s3 !! username) as [bal|]; simpl; [|reflexivity].
  destruct (bal <? 1); [|reflexivity].
  now rewrite log_insufficient_points_True.
Qed.

(** C10: [True] passes the [isinstance] test and the test on the value,
    and is a donation of one point: on a store that answers and a balance
    of at least 1 it returns with the balance less 1, saved and committed.
    In every state it has the outcome and the effects of the integer 1, and
    it never raises a [TypeError].  [False] passes the [isinstance] test
    too and is rejected by the test on the value, with the [ValueError] of a
    non-positive amount. *)
Theorem donate_accepts_booleans (username : string) (s : world) :
  (forall bal,
     accounts s !! username = Some bal ->
     1 <= bal ->
     quiet 4 s = true ->
     donate_kbase_points username (PyBool true) s
     = (Return (Donation username (bal - 1) (next_update_id s)),
        World (<[username := bal - 1]> (accounts s)) None
              (drop 4 (faults s)) (next_update_id s + 1)
              (CExit false :: CSaveUser (User username (bal - 1))
                 :: CGetUser username 2 :: CTransaction :: calls s)
              (S (attempts s)) (slept s)))
  /\ donate_kbase_points username (PyBool true) s
     = donate_kbase_points username (PyInt 1) s
  /\ (forall msg,
        fst (donate_kbase_points username (PyBool true) s)
        <> Raise (TypeError msg))
  /\ donate_kbase_points username (PyBool false) s
     = (Raise (ValueError "Donation points must be a positive integer."),
        begin_attempt s).
Proof.
  split; [|split; [|split]].
  - intros bal Hb Hle Hq.
    assert (Hp : 0 < int_value (PyBool true)) by reflexivity.
    exact (donate_success username (PyBool true) eq_refl Hp s bal Hq Hb Hle).
  - apply retry_loop_ext. apply wrapped_True_is_one.
  - intros msg E. pose proof (donate_inv username (PyBool true) s) as H.
    destruct (donate_kbase_points username (PyBool true) s) as [r s'].
    simpl in E. subst r. destruct H as [_ H]. now apply (H eq_refl msg).
  - apply retry_loop_propagates; [|reflexivity].
    now apply (wrapped_not_positive username (PyBool false)).
Qed.

(** [True] on a balance of 100 leaves 99. *)
Lemma donate_accepts_booleans_witness :
  exists s',
    donate_kbase_points "alice" (PyBool true) (example_store 100 [])
    = (Return (Donation "alice" (100 - 1) 1), s')
    /\ accounts s' !! "alice" = Some (100 - 1).
Proof.
  destruct (donate_accepts_booleans "alice" (example_store 100 [])) as [H _].
  assert (Hb : accounts (example_store 100 []) !! "alice" = Some 100)
    by reflexivity.
  assert (Hle : 1 <= 100) by lia.
  rewrite (H 100 Hb Hle eq_refl). eexists. split; [reflexivity|].
  cbn [accounts]. apply lookup_insert_eq.
Defined.

(** ** More on one attempt *)

(** The exceptions an attempt can end with. *)
Lemma wrapped_failures (username : string) (v : pyval) (s : world) e s' :
  donate_kbase_points_wrapped username v s = (Raise e, s') ->
  e = TypeError "Donation points must be an integer."
  \/ (exists msg, e = ValueError msg)
  \/ (exists name, e = NoSuchUserError name)
  \/ (isinstance_Exception e = false)
  \/ (exists cause,
        e = DatabaseOperationError
              "Failed to process donation after retries." (Some cause)
        /\ passes_through cause = false).
Proof.
  unfold donate_kbase_points_wrapped.
  destruct (isinstance_int v) eqn:Hint; simpl; [|intros [= <- _]; auto].
  destruct (Z.leb_spec (int_value v) 0) as [Hle|Hlt];
    [not_positive; intros [= <- _]; eauto|].
  unfold_service. simpl.
  repeat step; intros [= <- _]; eauto 8.
Qed.

(** The calls one attempt makes. *)
Lemma wrapped_calls (username : string) (v : pyval) (s : world) :
  exists new,
    calls (snd (donate_kbase_points_wrapped username v s)) = new ++ calls s
    /\ (length new <= 4)%nat
    /\ Forall (expected_call (accounts s) username v) new.
Proof.
  unfold donate_kbase_points_wrapped.
  destruct (isinstance_int v) eqn:Hint; simpl;
    [|exists []; repeat split; [simpl; lia | constructor]].
  destruct (Z.leb_spec (int_value v) 0) as [Hle|Hlt];
    [not_positive; exists []; repeat split; simpl; try lia; constructor|].
  unfold_service. simpl.
  repeat step.
  all: match goal with
       | |- exists new, ?l = new ++ ?t /\ _ =>
           let rec prefix l :=
             lazymatch l with
             | t => constr:(@nil call)
             | ?c :: ?l' => let p := prefix l' in constr:(c :: p)
             end in
           let p := prefix l in exists p
       end.
  all: split; [reflexivity | split; [simpl; lia|]].
  all: repeat constructor; simpl; eauto.
Qed.

(** An attempt leaves no transaction open. *)
Lemma wrapped_closes_transaction (username : string) (v : pyval) (s : world) :
  pending s = None ->
  pending (snd (donate_kbase_points_wrapped username v s)) = None.
Proof.
  intros Hp. unfold donate_kbase_points_wrapped.
  destruct (isinstance_int v) eqn:Hint; simpl; [|done].
  destruct (Z.leb_spec (int_value v) 0) as [Hle|Hlt]; [not_positive; done|].
  unfold_service. simpl.
  repeat step; done.
Qed.

(** ** More on the retry loop *)

(** An invariant [I] of the states attempts start from, and a property [Q]
    of the states attempts end in: [Q] holds when the loop ends. *)
Lemma retry_loop_invariant {A} cfg k (f : M A) (I Q : world -> Prop) s :
  (forall s0, I s0 ->
     match f (begin_attempt s0) with
     | (Return _, s1) => Q s1
     | (Raise _, s1) => Q s1 /\ I (sleep (wait_fixed cfg) s1)
     end) ->
  I s ->
  Q (snd (retry_loop cfg k f s)).
Proof.
  intros Hstep. revert s. induction k as [|k IH]; intros s HI; simpl;
    specialize (Hstep s HI);
    destruct (f (begin_attempt s)) as [[a|e] s1]; simpl; try done;
    destruct Hstep as [HQ HI1];
    destruct (retry_if cfg e); simpl; auto.
Qed.

(** Why a loop ends with an exception: the last attempt raised one the
    [retry] predicate rejects, or one it accepts when no attempt is left. *)
Lemma retry_loop_raises {A} cfg k (f : M A) s e s' :
  retry_loop cfg k f s = (Raise e, s') ->
  (exists s0, f s0 = (Raise e, s') /\ retry_if cfg e = false)
  \/ (exists s0 e0,
        f s0 = (Raise e0, s') /\ retry_if cfg e0 = true
        /\ e = if reraise cfg then e0 else RetryError e0).
Proof.
  revert s. induction k as [|k IH]; intros s; simpl;
    destruct (f (begin_attempt s)) as [[a|e1] s1] eqn:E; try discriminate;
    destruct (retry_if cfg e1) eqn:R; try (intros [= <- <-]; eauto 6).
  apply IH.
Qed.

(** An attempt in which call number [i] on the wrapper raises an exception
    the [except] clauses wrap. *)
Lemma wrapped_failure_at
    (username : string) (v : pyval) (s : world) (bal : Z)
    (i : nat) (e : exn) (fs : list (option exn)) :
  isinstance_int v = true ->
  0 < int_value v ->
  accounts s !! username = Some bal ->
  int_value v <= bal ->
  (i < 4)%nat ->
  passes_through e = false ->
  faults s = failure_at i e ++ fs ->
  exists s1,
    donate_kbase_points_wrapped username v s
    = (Raise (DatabaseOperationError
                "Failed to process donation after retries." (Some e)), s1)
    /\ accounts s1 = accounts s
    /\ faults s1 = fs
    /\ next_update_id s1
       = next_update_id s + (if (i =? 3)%nat then 1 else 0)
    /\ attempts s1 = attempts s
    /\ slept s1 = slept s.
Proof.
  intros Hi Hp Hb Hle Hlt He Hf.
  rewrite (wrapped_valid username v Hi Hp).
  unfold_service. rewrite Hf.
  destruct i as [|[|[|[|i]]]]; [..|lia]; simpl; rewrite ?Hb; simpl.
  2-4: destruct (Z.ltb_spec bal (int_value v)); [lia|]; simpl.
  all: destruct e; try discriminate He; simpl.
  all: eexists; split; [reflexivity|]; cbn; repeat split; lia.
Qed.

(** ** Further properties of [donate_kbase_points] *)

(** X1: the only exception of an attempt that the decorator retries is the
    [DatabaseOperationError] built by the last [except] clause, raised from
    an exception the clauses before it do not let through.  A timeout of
    the store never reaches the decorator as such, although its [retry]
    predicate lists it. *)
Theorem only_wrapped_failures_are_retried
    (username : string) (v : pyval) (s : world) (e : exn) (s' : world) :
  donate_kbase_points_wrapped username v s = (Raise e, s') ->
  retry_if_exception_type e = true ->
  e <> FutureTimeoutError
  /\ exists cause,
       e = DatabaseOperationError
             "Failed to process donation after retries." (Some cause)
       /\ passes_through cause = false.
Proof.
  intros E R.
  destruct (wrapped_failures username v s e s' E)
    as [->|[[msg ->]|[[name ->]|[H|(cause & -> & Hc)]]]]; try discriminate.
  - destruct e; discriminate.
  - split; [discriminate | eauto].
Qed.

Lemma only_wrapped_failures_are_retried_witness :
  DatabaseOperationError "Failed to process donation after retries."
    (Some FutureTimeoutError) <> FutureTimeoutError
  /\ exists cause,
       DatabaseOperationError "Failed to process donation after retries."
         (Some FutureTimeoutError)
       = DatabaseOperationError
           "Failed to process donation after retries." (Some cause)
       /\ passes_through cause = false.
Proof.
  assert (Hp : 0 < int_value (PyInt 30)) by (simpl; lia).
  exact (only_wrapped_failures_are_retried "alice" (PyInt 30)
           (example_store 100 (failing_fetch FutureTimeoutError)) _ _
           (wrapped_fetch_fails "alice" (PyInt 30) eq_refl Hp
              (example_store 100 (failing_fetch FutureTimeoutError))
              FutureTimeoutError [] eq_refl eq_refl)
           eq_refl).
Defined.

(** X2: the exceptions [donate] can raise to its caller, whatever the
    arguments and whatever the store does: the [TypeError] of the
    validation, a [ValueError], a [NoSuchUserError], an exception that is
    not an [Exception], or tenacity's [RetryError] around the
    [DatabaseOperationError] of the last attempt.  A
    [DatabaseOperationError], a timeout or another store error never reaches
    the caller as such. *)
Theorem donate_failure_kinds
    (username : string) (v : pyval) (s : world) (e : exn) (s' : world) :
  donate_kbase_points username v s = (Raise e, s') ->
  e = TypeError "Donation points must be an integer."
  \/ (exists msg, e = ValueError msg)
  \/ (exists name, e = NoSuchUserError name)
  \/ isinstance_Exception e = false
  \/ (exists cause,
        e = RetryError
              (DatabaseOperationError
                 "Failed to process donation after retries." (Some cause))
        /\ passes_through cause = false).
Proof.
  intros E. apply retry_loop_raises in E as [(s0 & E & R)|(s0 & e0 & E & R & ->)].
  - destruct (wrapped_failures username v s0 e s' E)
      as [->|[[msg ->]|[[name ->]|[H|(cause & -> & Hc)]]]]; eauto 6;
      discriminate R.
  - destruct (wrapped_failures username v s0 e0 s' E)
      as [->|[[msg ->]|[[name ->]|[H|(cause & -> & Hc)]]]];
      try discriminate R.
    + destruct e0; discriminate.
    + cbn. eauto 8.
Qed.

Lemma donate_failure_kinds_witness :
  exists cause,
    RetryError
      (DatabaseOperationError "Failed to process donation after retries."
         (Some FutureTimeoutError))
    = RetryError
        (DatabaseOperationError
           "Failed to process donation after retries." (Some cause))
    /\ passes_through cause = false.
Proof.
  assert (Hp : 0 < int_value (PyInt 30)) by (simpl; lia).
  destruct (donate_failure_kinds "alice" (PyInt 30)
              (example_store 100
                 (failing_fetch FutureTimeoutError
                    ++ failing_fetch FutureTimeoutError
                    ++ failing_fetch FutureTimeoutError ++ [])) _ _
              (three_failing_fetches false "alice" (PyInt 30)
                 (example_store 100
                    (failing_fetch FutureTimeoutError
                       ++ failing_fetch FutureTimeoutError
                       ++ failing_fetch FutureTimeoutError ++ []))
                 FutureTimeoutError FutureTimeoutError FutureTimeoutError []
                 eq_refl Hp eq_refl eq_refl eq_refl eq_refl))
    as [H|[[msg H]|[[name H]|[H|H]]]]; try discriminate H.
  exact H.
Defined.

(** X3: a [donate] that raises, for whatever reason and after however many
    attempts, leaves every committed balance as it was: what failed attempts
    wrote was rolled back. *)
Theorem donate_failure_is_atomic
    (username : string) (v : pyval) (s : world) (e : exn) (s' : world) :
  donate_kbase_points username v s = (Raise e, s') ->
  accounts s' = accounts s.
Proof.
  intros E. pose proof (donate_inv username v s) as H.
  rewrite E in H. tauto.
Qed.

Lemma donate_failure_is_atomic_witness :
  exists s',
    donate_kbase_points "alice" (PyInt 130) (example_store 100 [])
    = (Raise (ValueError "Insufficient KBase points."), s')
    /\ accounts s' = accounts (example_store 100 []).
Proof.
  assert (Hp : 0 < int_value (PyInt 130)) by (simpl; lia).
  assert (Hlt : 100 < int_value (PyInt 130)) by (simpl; lia).
  pose proof (donate_insufficient "alice" (PyInt 130) eq_refl Hp
                (example_store 100 []) 100 eq_refl eq_refl Hlt) as E.
  eexists. split; [exact E|].
  exact (donate_failure_is_atomic "alice" (PyInt 130) _ _ _ E).
Defined.

(** X4: whatever the outcome, [donate] changes no account but the one of
    [username]. *)
Theorem donate_touches_only_the_donor
    (username : string) (v : pyval) (s : world) (other : string) :
  other <> username ->
  accounts (snd (donate_kbase_points username v s)) !! other
  = accounts s !! other.
Proof.
  intros Hne. pose proof (donate_inv username v s) as H.
  destruct (donate_kbase_points username v s) as [[d|e] s']; simpl.
  - destruct H as (bal & _ & _ & _ & _ & ->). now apply lookup_insert_ne.
  - destruct H as [-> _]. reflexivity.
Qed.

Lemma donate_touches_only_the_donor_witness :
  accounts (snd (donate_kbase_points "alice" (PyInt 30) (example_store 100 [])))
    !! "bob"
  = accounts (example_store 100 []) !! "bob".
Proof.
  apply (donate_touches_only_the_donor "alice" (PyInt 30)). discriminate.
Defined.

(** X5: [donate] returns only for an instance of [int] above zero and an
    account that exists and covers the points, whatever the store does; the
    dictionary it returns then names [username] and a remaining balance that
    is non-negative when the balance was, and below the old balance. *)
Theorem donate_returns_only_when_valid
    (name : string) (v : pyval) (s : world) (d : donation) (s' : world) :
  donate_kbase_points name v s = (Return d, s') ->
  isinstance_int v = true
  /\ 0 < int_value v
  /\ exists bal,
       accounts s !! name = Some bal
       /\ int_value v <= bal
       /\ username d = name
       /\ 0 <= remaining_kbase_points d < bal.
Proof.
  intros E. pose proof (donate_inv name v s) as H.
  rewrite E in H. destruct H as (bal & Hb & Hi & [Hp Hle] & -> & _).
  repeat split; try done. exists bal. simpl. repeat split; try done; lia.
Qed.

Lemma donate_returns_only_when_valid_witness :
  isinstance_int (PyInt 30) = true
  /\ 0 < int_value (PyInt 30)
  /\ exists bal,
       accounts (example_store 100 []) !! "alice" = Some bal
       /\ int_value (PyInt 30) <= bal
       /\ username (Donation "alice" (100 - int_value (PyInt 30)) 1) = "alice"
       /\ 0 <= remaining_kbase_points
                 (Donation "alice" (100 - int_value (PyInt 30)) 1) < bal.
Proof.
  assert (Hp : 0 < int_value (PyInt 30)) by (simpl; lia).
  assert (Hle : int_value (PyInt 30) <= 100) by (simpl; lia).
  exact (donate_returns_only_when_valid "alice" (PyInt 30) _ _ _
           (donate_success "alice" (PyInt 30) eq_refl Hp
              (example_store 100 []) 100 eq_refl eq_refl Hle)).
Defined.

(** X6: for any arguments and any store, [donate] starts between one and
    three attempts and waits one second after each attempt but the last:
    the seconds waited are the attempts less one, two at most. *)
Theorem donate_attempts_and_waits
    (username : string) (v : pyval) (s : world) :
  let s' := snd (donate_kbase_points username v s) in
  (attempts s < attempts s' <= attempts s + 3)%nat
  /\ (slept s' + attempts s + 1 = slept s + attempts s')%nat
  /\ (slept s' <= slept s + 2)%nat.
Proof.
  intros s'.
  assert (H3 : (attempts s' <= attempts s + 3)%nat)
    by apply donate_at_most_three_attempts.
  assert (H : (attempts s < attempts s')%nat
              /\ (slept s' + attempts s + 1 = slept s + attempts s')%nat).
  { unfold s', donate_kbase_points, retry.
    apply (retry_loop_invariant decorator _ _
             (fun s0 => (attempts s <= attempts s0)%nat
                        /\ (slept s0 + attempts s = slept s + attempts s0)%nat));
      [|lia].
    intros s0 [Ha Hs].
    destruct (wrapped_instrumentation username v (begin_attempt s0)) as [Ea Es].
    destruct (donate_kbase_points_wrapped username v (begin_attempt s0))
      as [[d|e] s1]; simpl in *; lia. }
  lia.
Qed.

(** X7: an exception of the fetch that the [except] clauses let through (a
    [ValueError] or a [NoSuchUserError] raised by the store itself, or one
    that is not an [Exception]) reaches the caller as it is, after a single
    attempt: it is neither wrapped nor retried, and the transaction is left
    with the error. *)
Theorem fetch_errors_let_through
    (username : string) (v : pyval) (s : world)
    (e : exn) (fs : list (option exn)) :
  isinstance_int v = true ->
  0 < int_value v ->
  passes_through e = true ->
  faults s = failing_fetch e ++ fs ->
  donate_kbase_points username v s
  = (Raise e,
     World (accounts s) None fs (next_update_id s)
           (CExit true :: CGetUser username 2 :: CTransaction :: calls s)
           (S (attempts s)) (slept s)).
Proof.
  intros Hi Hp He Hf.
  assert (R : retry_if decorator e = false)
    by (destruct e; try discriminate He; reflexivity).
  apply retry_loop_propagates; [|exact R].
  rewrite (wrapped_valid username v Hi Hp).
  unfold_service. cbn [faults]. rewrite Hf. simpl.
  destruct e; try discriminate He; reflexivity.
Qed.

Lemma fetch_errors_let_through_witness :
  donate_kbase_points "alice" (PyInt 30)
    (example_store 100 (failing_fetch (ValueError "bad row") ++ []))
  = (Raise (ValueError "bad row"),
     World (accounts (example_store 100 [])) None [] 1
           [CExit true; CGetUser "alice" 2; CTransaction] 1 0).
Proof.
  assert (Hp : 0 < int_value (PyInt 30)) by (simpl; lia).
  exact (fetch_errors_let_through "alice" (PyInt 30)
           (example_store 100 (failing_fetch (ValueError "bad row") ++ []))
           (ValueError "bad row") [] eq_refl Hp eq_refl eq_refl).
Defined.

(** X8: a failure of the store anywhere in the first attempt (entering the
    transaction, the fetch, the save after the decrement, or the commit),
    followed by an attempt the store lets through, applies the donation
    exactly once: the balance goes down by [points], not twice, in two
    attempts and one wait.  The identifier returned is the next one, or the
    one after when the failed attempt had already saved. *)
Theorem failed_attempt_is_not_applied
    (username : string) (v : pyval) (s : world) (bal : Z)
    (i : nat) (e : exn) (fs : list (option exn)) :
  isinstance_int v = true ->
  0 < int_value v ->
  accounts s !! username = Some bal ->
  int_value v <= bal ->
  (i < 4)%nat ->
  passes_through e = false ->
  faults s = failure_at i e ++ fs ->
  quiet 4 (with_faults fs s) = true ->
  exists s',
    donate_kbase_points username v s
    = (Return (Donation username (bal - int_value v)
                        (next_update_id s + (if (i =? 3)%nat then 1 else 0))),
       s')
    /\ accounts s' = <[username := bal - int_value v]> (accounts s)
    /\ attempts s' = (attempts s + 2)%nat
    /\ slept s' = (slept s + 1)%nat.
Proof.
  intros Hi Hp Hb Hle Hlt He Hf Hq.
  destruct (wrapped_failure_at username v (begin_attempt s) bal i e fs
              Hi Hp Hb Hle Hlt He Hf)
    as (s1 & E1 & Hacc & Hfs & Hid & Hat & Hsl).
  cbn [begin_attempt accounts attempts slept next_update_id] in *.
  assert (Hq2 : quiet 4 (begin_attempt (sleep 1 s1)) = true).
  { unfold quiet in *. cbn [begin_attempt sleep with_faults faults] in *.
    now rewrite Hfs. }
  assert (Hb2 : accounts (begin_attempt (sleep 1 s1)) !! username = Some bal).
  { cbn [begin_attempt sleep accounts]. now rewrite Hacc. }
  eexists. split.
  - unfold_retry. rewrite E1. cbn [retry_if_exception_type].
    rewrite (wrapped_success username v Hi Hp _ bal Hq2 Hb2 Hle).
    cbn [begin_attempt sleep next_update_id]. rewrite Hid. reflexivity.
  - cbn. rewrite Hacc, Hat, Hsl. repeat split; lia.
Qed.

(** A commit that fails after the save, then a clean attempt. *)
Lemma failed_attempt_is_not_applied_witness :
  exists s',
    donate_kbase_points "alice" (PyInt 30)
      (example_store 100 (failure_at 3 (StoreError "ConnectionError") ++ []))
    = (Return (Donation "alice" (100 - int_value (PyInt 30)) (1 + 1)), s')
    /\ accounts s'
       = <["alice" := 100 - int_value (PyInt 30)]>
           (accounts
              (example_store 100
                 (failure_at 3 (StoreError "ConnectionError") ++ [])))
    /\ attempts s' = 2%nat
    /\ slept s' = 1%nat.
Proof.
  assert (Hp : 0 < int_value (PyInt 30)) by (simpl; lia).
  assert (Hle : int_value (PyInt 30) <= 100) by (simpl; lia).
  assert (Hlt : (3 < 4)%nat) by lia.
  exact (failed_attempt_is_not_applied "alice" (PyInt 30)
           (example_store 100 (failure_at 3 (StoreError "ConnectionError") ++ []))
           100 3 (StoreError "ConnectionError") []
           eq_refl Hp eq_refl Hle Hlt eq_refl eq_refl eq_refl).
Defined.

(** X9: whatever the arguments and the store, [donate] makes at most twelve
    calls on the wrapper; every fetch among them is for [username] with a
    timeout of 2, and every save is of the account of [username] with
    [points] taken off a committed balance that covers them, so that no
    other account and no balance below zero is ever handed to [save_user]
    for an account that was not below zero. *)
Theorem donate_calls_on_the_store
    (username : string) (v : pyval) (s : world) :
  exists new,
    calls (snd (donate_kbase_points username v s)) = new ++ calls s
    /\ (length new <= 12)%nat
    /\ Forall (expected_call (accounts s) username v) new.
Proof.
  pose proof (donate_at_most_three_attempts username v s) as H3.
  cut (exists new,
         calls (snd (donate_kbase_points username v s)) = new ++ calls s
         /\ (length new
             <= 4 * (attempts (snd (donate_kbase_points username v s))
                     - attempts s))%nat
         /\ Forall (expected_call (accounts s) username v) new).
  { intros (new & Hc & Hl & Hf). exists new. repeat split; try done. lia. }
  unfold donate_kbase_points, retry.
  apply (retry_loop_invariant decorator _ _
           (fun s0 =>
              accounts s0 = accounts s
              /\ (attempts s <= attempts s0)%nat
              /\ exists new,
                   calls s0 = new ++ calls s
                   /\ (length new <= 4 * (attempts s0 - attempts s))%nat
                   /\ Forall (expected_call (accounts s) username v) new)).
  - intros s0 (Hacc & Hle & new & Hc & Hl & Hf).
    destruct (wrapped_calls username v (begin_attempt s0))
      as (new1 & Hc1 & Hl1 & Hf1).
    destruct (wrapped_instrumentation username v (begin_attempt s0)) as [Ea _].
    pose proof (wrapped_inv username v (begin_attempt s0)) as Hinv.
    cbn [begin_attempt accounts calls attempts] in *.
    rewrite Hacc in Hf1. rewrite Hc, app_assoc in Hc1.
    assert (HQ : exists new2,
               calls (snd (donate_kbase_points_wrapped username v
                             (begin_attempt s0))) = new2 ++ calls s
               /\ (length new2
                   <= 4 * (attempts
                             (snd (donate_kbase_points_wrapped username v
                                     (begin_attempt s0))) - attempts s))%nat
               /\ Forall (expected_call (accounts s) username v) new2).
    { exists (new1 ++ new). split; [exact Hc1|]. split.
      - rewrite length_app, Ea. lia.
      - now apply Forall_app. }
    destruct (donate_kbase_points_wrapped username v (begin_attempt s0))
      as [[d|e] s1]; cbn [snd] in *; [exact HQ|].
    split; [exact HQ|]. cbn [sleep accounts calls attempts].
    destruct Hinv as [-> _]. split; [exact Hacc|]. split; [lia | exact HQ].
  - split; [reflexivity|]. split; [lia|].
    exists []. repeat split; [simpl; lia | constructor].
Qed.

(** X10: called with no transaction open, [donate] leaves none open,
    however it ends: every transaction it enters is committed or rolled
    back. *)
Theorem donate_leaves_no_transaction_open
    (username : string) (v : pyval) (s : world) :
  pending s = None ->
  pending (snd (donate_kbase_points username v s)) = None.
Proof.
  intros Hp. unfold donate_kbase_points, retry.
  apply (retry_loop_invariant decorator _ _ (fun s0 => pending s0 = None));
    [|exact Hp].
  intros s0 H0.
  pose proof (wrapped_closes_transaction username v (begin_attempt s0) H0) as H.
  destruct (donate_kbase_points_wrapped username v (begin_attempt s0))
    as [[d|e] s1]; simpl in *; auto.
Qed.

Lemma donate_leaves_no_transaction_open_witness :
  pending
    (snd (donate_kbase_points "alice" (PyInt 30)
            (example_store 100 (failure_at 2 FutureTimeoutError))))
  = None.
Proof.
  apply (donate_leaves_no_transaction_open "alice" (PyInt 30)). reflexivity.
Defined.

(** X11: a failure of the fetch that is retried does not hide what the
    next attempt finds: if the account is then missing the caller gets the
    [NoSuchUserError], and if the balance is too small a [ValueError],
    after two attempts and one wait, with the accounts as they were and
    nothing saved.  The message of the [ValueError] is "Insufficient KBase
    points." when the balance and the points have at most 4300 digits, and
    the one of the failed conversion of the log message otherwise. *)
Theorem business_error_after_retry
    (username : string) (v : pyval) (s : world)
    (e : exn) (fs : list (option exn)) :
  isinstance_int v = true ->
  0 < int_value v ->
  transient e = true ->
  faults s = failing_fetch e ++ fs ->
  quiet 3 (with_faults fs s) = true ->
  let after :=
    World (accounts s) None (drop 3 fs) (next_update_id s)
          (CExit true :: CGetUser username 2 :: CTransaction
             :: CExit true :: CGetUser username 2 :: CTransaction :: calls s)
          (attempts s + 2) (slept s + 1) in
  (accounts s !! username = None ->
   donate_kbase_points username v s
   = (Raise (NoSuchUserError username), after))
  /\ (forall bal,
        accounts s !! username = Some bal -> bal < int_value v ->
        donate_kbase_points username v s
        = (Raise (ValueError
                    (if printable bal && value_printable v
                     then "Insufficient KBase points."
                     else int_str_limit_message)), after)).
Proof.
  intros Hi Hp He Hf Hq after. split.
  - intros Hn. unfold_retry.
    rewrite (wrapped_fetch_fails username v Hi Hp (begin_attempt s) e fs He Hf).
    cbn [retry_if_exception_type].
    match goal with
    | |- context [donate_kbase_points_wrapped ?u ?w ?s0] =>
        rewrite (wrapped_no_user u w Hi Hp s0 Hq Hn)
    end.
    unfold after. cbn. do 2 f_equal; lia.
  - intros bal Hb Hlt. unfold_retry.
    rewrite (wrapped_fetch_fails username v Hi Hp (begin_attempt s) e fs He Hf).
    cbn [retry_if_exception_type].
    match goal with
    | |- context [donate_kbase_points_wrapped ?u ?w ?s0] =>
        rewrite (wrapped_insufficient u w Hi Hp s0 bal Hq Hb Hlt)
    end.
    unfold after. cbn. do 2 f_equal; lia.
Qed.

Lemma business_error_after_retry_witness :
  donate_kbase_points "bob" (PyInt 30)
    (example_store 100 (failing_fetch FutureTimeoutError ++ []))
  = (Raise (NoSuchUserError "bob"),
     World (accounts (example_store 100 [])) None [] 1
           [CExit true; CGetUser "bob" 2; CTransaction;
            CExit true; CGetUser "bob" 2; CTransaction] 2 1).
Proof.
  assert (Hp : 0 < int_value (PyInt 30)) by (simpl; lia).
  destruct (business_error_after_retry "bob" (PyInt 30)
              (example_store 100 (failing_fetch FutureTimeoutError ++ []))
              FutureTimeoutError [] eq_refl Hp eq_refl eq_refl eq_refl)
    as [H _].
  exact (H eq_refl).
Defined.

(** X12: with a store that answers, donating [a] points and then [b] more
    leaves the balances a single donation of [a + b] points leaves. *)
Theorem donations_add_up
    (username : string) (a b : Z) (s : world) (bal : Z) :
  0 < a -> 0 < b ->
  accounts s !! username = Some bal ->
  a + b <= bal ->
  quiet 8 s = true ->
  accounts
    (snd (donate_kbase_points username (PyInt b)
            (snd (donate_kbase_points username (PyInt a) s))))
  = accounts (snd (donate_kbase_points username (PyInt (a + b)) s)).
Proof.
  intros Ha Hb Hbal Hle Hq. apply quiet_split in Hq as [Hq1 Hq2].
  rewrite (donate_success username (PyInt a) eq_refl Ha s bal Hq1 Hbal)
    by (simpl; lia).
  rewrite (donate_success username (PyInt (a + b)) eq_refl ltac:(simpl; lia)
             s bal Hq1 Hbal) by (simpl; lia).
  cbn [snd].
  match goal with
  | |- context [donate_kbase_points username (PyInt b) ?s0] =>
      rewrite (donate_success username (PyInt b) eq_refl Hb s0 (bal - a) Hq2)
        by (cbn; first [apply lookup_insert_eq | lia])
  end.
  cbn. rewrite insert_insert_eq. f_equal. lia.
Qed.

Lemma donations_add_up_witness :
  accounts
    (snd (donate_kbase_points "alice" (PyInt 20)
            (snd (donate_kbase_points "alice" (PyInt 30)
                    (example_store 100 [])))))
  = accounts (snd (donate_kbase_points "alice" (PyInt (30 + 20))
                     (example_store 100 []))).
Proof.
  apply (donations_add_up "alice" 30 20 (example_store 100 []) 100);
    reflexivity || lia.
Defined.

(** X13: with a store that answers, donations of two different users do
    not interfere: either order leaves the same balances. *)
Theorem donations_of_two_users_commute
    (u1 u2 : string) (v1 v2 : pyval) (s : world) (bal1 bal2 : Z) :
  u1 <> u2 ->
  isinstance_int v1 = true -> 0 < int_value v1 ->
  isinstance_int v2 = true -> 0 < int_value v2 ->
  accounts s !! u1 = Some bal1 -> int_value v1 <= bal1 ->
  accounts s !! u2 = Some bal2 -> int_value v2 <= bal2 ->
  quiet 8 s = true ->
  accounts (snd (donate_kbase_points u2 v2 (snd (donate_kbase_points u1 v1 s))))
  = accounts (snd (donate_kbase_points u1 v1 (snd (donate_kbase_points u2 v2 s)))).
Proof.
  intros Hne Hi1 Hp1 Hi2 Hp2 Hb1 Hle1 Hb2 Hle2 Hq.
  apply quiet_split in Hq as [Hq1 Hq2].
  rewrite (donate_success u1 v1 Hi1 Hp1 s bal1 Hq1 Hb1 Hle1).
  rewrite (donate_success u2 v2 Hi2 Hp2 s bal2 Hq1 Hb2 Hle2).
  cbn [snd].
  match goal with
  | |- context [donate_kbase_points u2 v2 ?s0] =>
      rewrite (donate_success u2 v2 Hi2 Hp2 s0 bal2 Hq2)
        by (cbn; first [done | now rewrite lookup_insert_ne by done])
  end.
  match goal with
  | |- context [donate_kbase_points u1 v1 ?s0] =>
      rewrite (donate_success u1 v1 Hi1 Hp1 s0 bal1 Hq2)
        by (cbn; first [done | now rewrite lookup_insert_ne by done])
  end.
  cbn. now apply insert_insert_ne.
Qed.

Lemma donations_of_two_users_commute_witness :
  accounts
    (snd (donate_kbase_points "bob" (PyInt 20)
            (snd (donate_kbase_points "alice" (PyInt 30)
                    (World (<["bob" := 50]> {["alice" := 100]})
                           None [] 1 [] 0 0)))))
  = accounts
      (snd (donate_kbase_points "alice" (PyInt 30)
              (snd (donate_kbase_points "bob" (PyInt 20)
                      (World (<["bob" := 50]> {["alice" := 100]})
                             None [] 1 [] 0 0))))).
Proof.
  apply (donations_of_two_users_commute
           "alice" "bob" (PyInt 30) (PyInt 20) _ 100 50);
    first [discriminate | reflexivity | simpl; lia].
Defined.
